(** * Byteflow health-check tool (server.py): model and verified properties

    A shallow embedding of [src/server.py].  The module is a thin adapter:
    one pydantic input model, one HTTP GET issued through httpx, one error
    classifier and one tool body that renders either a status line or an
    error line.

    Conventions of the embedding.
    - A Python [str] is a Rocq [string]; every [ascii] stands for one
      character (a code point below 256), so [len] counts characters the
      way Python's [len] does.
    - A value produced by [json.loads] is a [py_value].  A float is carried
      by the text Python prints for it.
    - A Python call that may raise returns a [result]; the coroutine that
      talks to the network lives in the small monad [IO], which reads the
      remote end, logs every request that is sent and propagates
      exceptions.
    - What the host framework does before the tool body runs is not in the
      module: how it finds the value of the parameter [params] among the
      arguments of a call is a parameter of [call_tool]. *)

From Stdlib Require Import ZArith List String Ascii Bool Lia.
From Stdlib Require Import DecimalString.
Import ListNotations.

Open Scope string_scope.
Open Scope Z_scope.

(** ** Python strings *)

Module PyString.

(** [len(s)] *)
Definition len (s : string) : Z := Z.of_nat (String.length s).

(** The first [n] characters of [s] (all of [s] when it is shorter). *)
Fixpoint take (n : nat) (s : string) : string :=
  match n, s with
  | O, _ => EmptyString
  | S _, EmptyString => EmptyString
  | S n', String c s' => String c (take n' s')
  end.

(** [s[:stop]], Python's slice with an omitted start: a negative [stop]
    counts from the end, and the bounds are clipped to the string. *)
Definition slice_to (s : string) (stop : Z) : string :=
  if stop <? 0 then take (Z.to_nat (Z.max 0 (len s + stop))) s
  else take (Z.to_nat stop) s.

(** [s.startswith(p)] *)
Definition startswith (s p : string) : bool := String.prefix p s.

(** The characters of [s] from position [n] on. *)
Fixpoint drop (n : nat) (s : string) : string :=
  match n, s with
  | O, _ => s
  | S _, EmptyString => EmptyString
  | S n', String _ s' => drop n' s'
  end.

(** [s.endswith(p)] *)
Definition endswith (s p : string) : bool :=
  (String.length p <=? String.length s)%nat
  && String.eqb (drop (String.length s - String.length p) s) p.

(** [sep.join(parts)] *)
Fixpoint join (sep : string) (parts : list string) : string :=
  match parts with
  | [] => EmptyString
  | [p] => p
  | p :: rest => p ++ sep ++ join sep rest
  end.

(** [str(n)] for an [int]: decimal digits, a leading minus sign when
    negative. *)
Definition str_int (n : Z) : string := NilZero.string_of_int (Z.to_int n).

Definition squote : ascii := "'"%char.
Definition dquote : ascii := ascii_of_nat 34.
Definition backslash : ascii := ascii_of_nat 92.

Fixpoint contains (c : ascii) (s : string) : bool :=
  match s with
  | EmptyString => false
  | String d s' => Ascii.eqb c d || contains c s'
  end.

Definition hex_digit (n : N) : ascii :=
  if (n <? 10)%N then ascii_of_N (48 + n) else ascii_of_N (87 + n).

(** Whether [repr] copies the character as it is: the printable ASCII
    range, and in the upper half everything but the C1 controls, the
    no-break space and the soft hyphen. *)
Definition isprintable (n : N) : bool :=
  ((32 <=? n) && (n <? 127) || (161 <=? n) && negb (n =? 173))%N.

Definition repr_char (quote c : ascii) : string :=
  let n := N_of_ascii c in
  if Ascii.eqb c quote || Ascii.eqb c backslash then String backslash (String c "")
  else if (n =? 9)%N then String backslash "t"
  else if (n =? 10)%N then String backslash "n"
  else if (n =? 13)%N then String backslash "r"
  else if isprintable n then String c ""
  else String backslash
         (String "x" (String (hex_digit (n / 16)) (String (hex_digit (n mod 16)) ""))).

Fixpoint repr_chars (quote : ascii) (s : string) : string :=
  match s with
  | EmptyString => EmptyString
  | String c s' => repr_char quote c ++ repr_chars quote s'
  end.

(** [repr(s)] for a [str]: single quotes, unless the text holds a single
    quote and no double quote. *)
Definition repr_str (s : string) : string :=
  let quote := if contains squote s && negb (contains dquote s)
               then dquote else squote in
  String quote (repr_chars quote s ++ String quote "").

End PyString.

Import PyString.

(** ** Values decoded from JSON *)

#[local] Set Warnings "-register-all".

Inductive py_value : Type :=
| PyNone
| PyBool (b : bool)
| PyInt (n : Z)
| PyFloat (printed : string)
| PyStr (s : string)
| PyList (items : list py_value)
| PyDict (items : list (string * py_value)).

(** [type(v).__name__] *)
Definition type_name (v : py_value) : string :=
  match v with
  | PyNone => "NoneType"
  | PyBool _ => "bool"
  | PyInt _ => "int"
  | PyFloat _ => "float"
  | PyStr _ => "str"
  | PyList _ => "list"
  | PyDict _ => "dict"
  end.

(** [repr(v)]; a dict prints its items in insertion order. *)
Fixpoint py_repr (v : py_value) : string :=
  match v with
  | PyNone => "None"
  | PyBool true => "True"
  | PyBool false => "False"
  | PyInt n => str_int n
  | PyFloat printed => printed
  | PyStr s => repr_str s
  | PyList items => "[" ++ join ", " (map py_repr items) ++ "]"
  | PyDict items =>
      "{" ++ join ", " (map (fun kv => repr_str (fst kv) ++ ": " ++ py_repr (snd kv)) items)
          ++ "}"
  end.

(** [str(v)], which is also what an f-string field [{v}] prints. *)
Definition py_str (v : py_value) : string :=
  match v with
  | PyStr s => s
  | _ => py_repr v
  end.

(** [d.get(key, default)] on the items of a dict. *)
Fixpoint dict_get (items : list (string * py_value)) (key : string)
         (default : py_value) : py_value :=
  match items with
  | [] => default
  | (k, v) :: rest => if String.eqb k key then v else dict_get rest key default
  end.

(** ** Exceptions

    The classes of httpx's exception hierarchy that are reachable from a
    request, and every other exception class by its [__name__]: [Builtin]
    for a class derived from [Exception], [BaseOnly] for a class derived
    from [BaseException] only ([asyncio.CancelledError],
    [KeyboardInterrupt], [SystemExit], [GeneratorExit]).
    [HTTPStatusError] is the one class that carries a response; it is a
    constructor of [exn] of its own. *)

Inductive exn_class : Type :=
| HTTPError
| RequestError
| TransportError
| TimeoutException
| ConnectTimeout
| ReadTimeout
| WriteTimeout
| PoolTimeout
| NetworkError
| ConnectError
| ReadError
| WriteError
| CloseError
| ProtocolError
| LocalProtocolError
| RemoteProtocolError
| ProxyError
| UnsupportedProtocol
| DecodingError
| TooManyRedirects
| Builtin (name : string)
| BaseOnly (name : string).

Definition exn_class_eq_dec (c d : exn_class) : {c = d} + {c <> d}.
Proof. decide equality; apply string_dec. Defined.

(** The direct base class inside httpx; [None] when the base lies outside
    of it ([Exception], [ValueError], ...). *)
Definition base (c : exn_class) : option exn_class :=
  match c with
  | HTTPError => None
  | RequestError => Some HTTPError
  | TransportError => Some RequestError
  | TimeoutException => Some TransportError
  | ConnectTimeout | ReadTimeout | WriteTimeout | PoolTimeout => Some TimeoutException
  | NetworkError => Some TransportError
  | ConnectError | ReadError | WriteError | CloseError => Some NetworkError
  | ProtocolError => Some TransportError
  | LocalProtocolError | RemoteProtocolError => Some ProtocolError
  | ProxyError => Some TransportError
  | UnsupportedProtocol => Some TransportError
  | DecodingError => Some RequestError
  | TooManyRedirects => Some RequestError
  | Builtin _ => None
  | BaseOnly _ => None
  end.

Fixpoint mro_from (fuel : nat) (c : exn_class) : list exn_class :=
  c :: match fuel, base c with
       | S fuel', Some b => mro_from fuel' b
       | _, _ => []
       end.

(** The class and its bases; the hierarchy is five levels deep. *)
Definition mro (c : exn_class) : list exn_class := mro_from 4 c.

Definition issubclass (c d : exn_class) : bool :=
  existsb (fun b => if exn_class_eq_dec b d then true else false) (mro c).

Definition class_name (c : exn_class) : string :=
  match c with
  | HTTPError => "HTTPError"
  | RequestError => "RequestError"
  | TransportError => "TransportError"
  | TimeoutException => "TimeoutException"
  | ConnectTimeout => "ConnectTimeout"
  | ReadTimeout => "ReadTimeout"
  | WriteTimeout => "WriteTimeout"
  | PoolTimeout => "PoolTimeout"
  | NetworkError => "NetworkError"
  | ConnectError => "ConnectError"
  | ReadError => "ReadError"
  | WriteError => "WriteError"
  | CloseError => "CloseError"
  | ProtocolError => "ProtocolError"
  | LocalProtocolError => "LocalProtocolError"
  | RemoteProtocolError => "RemoteProtocolError"
  | ProxyError => "ProxyError"
  | UnsupportedProtocol => "UnsupportedProtocol"
  | DecodingError => "DecodingError"
  | TooManyRedirects => "TooManyRedirects"
  | Builtin name => name
  | BaseOnly name => name
  end.

(** What decoding the body of a response as JSON gives: the value; or, for
    a body that is text but not JSON, the message of the
    [json.JSONDecodeError] that [json.loads] raises; or the name and the
    message of another exception of the decoder ([UnicodeDecodeError] for
    bytes that are no text, [RecursionError] for a nesting too deep,
    [ValueError] for a number too long).  The decoder's exceptions are
    builtin classes derived from [Exception]; none is httpx's. *)
Inductive decoded : Type :=
| Parsed (v : py_value)
| Undecodable (message : string)
| DecoderRaises (name : string) (message : string).

(** An [httpx.Response], as far as the module reads it. *)
Record Response : Type := mkResponse {
  status_code : Z;
  text : string;
  body_json : decoded
}.

(** A raised exception: [str(e)] is [message]. *)
Inductive exn : Type :=
| HTTPStatusError (response : Response)
| Raised (cls : exn_class) (message : string).

(** [isinstance(e, Exception)]: what [except Exception] catches. *)
Definition is_Exception (e : exn) : bool :=
  match e with
  | HTTPStatusError _ => true
  | Raised (BaseOnly _) _ => false
  | Raised _ _ => true
  end.

(** [isinstance(e, c)] for a class [c] of [exn_class]. *)
Definition isinstance (e : exn) (c : exn_class) : bool :=
  match e with
  | HTTPStatusError _ => if exn_class_eq_dec c HTTPError then true else false
  | Raised cls _ => issubclass cls c
  end.

Inductive result (A : Type) : Type :=
| Returns (a : A)
| Raises (e : exn).

Arguments Returns {A} a.
Arguments Raises {A} e.

(** [response.json()]: httpx hands the body to [json.loads]; whatever the
    decoder raises leaves the call. *)
Definition Response_json (r : Response) : result py_value :=
  match body_json r with
  | Parsed v => Returns v
  | Undecodable message => Raises (Raised (Builtin "JSONDecodeError") message)
  | DecoderRaises name message => Raises (Raised (Builtin name) message)
  end.

(** [response.raise_for_status()]: every status outside 200..299 raises. *)
Definition raise_for_status (r : Response) : result unit :=
  if (200 <=? status_code r) && (status_code r <=? 299) then Returns tt
  else Raises (HTTPStatusError r).

(** [v.get(key, default)]: only a dict has the method. *)
Definition py_get (v : py_value) (key : string) (default : py_value)
  : result py_value :=
  match v with
  | PyDict items => Returns (dict_get items key default)
  | _ => Raises (Raised (Builtin "AttributeError")
                        ("'" ++ type_name v ++ "' object has no attribute 'get'"))
  end.

(** ** The remote end and the [IO] monad *)

Record http_request : Type := mkRequest {
  req_method : string;
  req_base_url : string;
  req_endpoint : string;
  req_timeout : Z
}.

(** What sending a request comes to: the transport raises, or a response
    arrives. *)
Inductive transport_outcome : Type :=
| TransportRaises (cls : exn_class) (message : string)
| Responds (r : Response).

Definition remote : Type := http_request -> transport_outcome.

(** A computation reads the remote end, logs the requests it sends and
    returns or raises. *)
Definition IO (A : Type) : Type := remote -> list http_request * result A.

Definition ret {A} (a : A) : IO A := fun _ => ([], Returns a).

Definition raise {A} (e : exn) : IO A := fun _ => ([], Raises e).

Definition lift {A} (r : result A) : IO A := fun _ => ([], r).

Definition bind {A B} (m : IO A) (k : A -> IO B) : IO B :=
  fun w =>
    match m w with
    | (sent, Returns a) => let (sent', r) := k a w in ((sent ++ sent')%list, r)
    | (sent, Raises e) => (sent, Raises e)
    end.

(** [try: body  except Exception as e: handler e]; an exception that is
    no instance of [Exception] is not caught. *)
Definition try_except {A} (body : IO A) (handler : exn -> IO A) : IO A :=
  fun w =>
    match body w with
    | (sent, Returns a) => (sent, Returns a)
    | (sent, Raises e) =>
        if is_Exception e
        then let (sent', r) := handler e w in ((sent ++ sent')%list, r)
        else (sent, Raises e)
    end.

Notation "x <- m ;; k" := (bind m (fun x => k))
  (at level 61, m at next level, right associativity).

(** [client.request(method, endpoint, timeout=...)] on a client bound to
    [base_url]. *)
Definition client_request (base_url method endpoint : string) (timeout : Z)
  : IO Response :=
  fun w =>
    let req := mkRequest method base_url endpoint timeout in
    ([req], match w req with
            | TransportRaises cls message => Raises (Raised cls message)
            | Responds r => Returns r
            end).

(** ** server.py *)

Definition API_BASE_URL : string := "https://apidoc.byteflow.bot".
Definition CHARACTER_LIMIT : Z := 25000.

Inductive ResponseFormat : Type :=
| MARKDOWN
| JSON.

Definition ResponseFormat_value (f : ResponseFormat) : string :=
  match f with
  | MARKDOWN => "markdown"
  | JSON => "json"
  end.

Definition ResponseFormat_eqb (f g : ResponseFormat) : bool :=
  String.eqb (ResponseFormat_value f) (ResponseFormat_value g).

Record ByteflowGetHealthInput : Type := mkInput {
  response_format : ResponseFormat
}.

(** [_make_api_request(endpoint, method)], lines 40-50; the timeout is the
    literal 30.0 seconds. *)
Definition _make_api_request (endpoint method : string) : IO py_value :=
  response <- client_request API_BASE_URL method endpoint 30 ;;
  _ <- lift (raise_for_status response) ;;
  lift (Response_json response).

(** [_handle_api_error(e)], lines 52-73.  The [try] around
    [e.response.json()] catches [httpx.ReadError] only; any other exception
    leaves the function. *)
Definition _handle_api_error (e : exn) : result string :=
  match e with
  | HTTPStatusError response =>
      if status_code response =? 404 then Returns "Error: Resource not found."
      else if status_code response =? 403 then Returns "Error: Permission denied."
      else if status_code response =? 401 then Returns "Error: Authentication failed."
      else if status_code response =? 429 then Returns "Error: Rate limit exceeded."
      else
        let error_detail :=
          match Response_json response with
          | Returns v => Returns v
          | Raises x =>
              if isinstance x ReadError then Returns (PyStr (text response))
              else Raises x
          end in
        match error_detail with
        | Returns error_detail =>
            Returns ("Error: API request failed with status "
                       ++ str_int (status_code response) ++ ": "
                       ++ py_str error_detail)
        | Raises x => Raises x
        end
  | Raised cls message =>
      if issubclass cls TimeoutException then Returns "Error: Request timed out."
      else if issubclass cls RequestError
           then Returns ("Error: Network request failed: " ++ message)
      else Returns ("Error: " ++ class_name cls ++ ": " ++ message)
  end.

(** [byteflow_get_health(params)], lines 85-139. *)
Definition byteflow_get_health (params : ByteflowGetHealthInput) : IO string :=
  try_except
    (response_data <- _make_api_request "api/health" "GET" ;;
     status <- lift (py_get response_data "status" (PyStr "UNKNOWN")) ;;
     if ResponseFormat_eqb (response_format params) JSON
     then ret (py_str (PyDict [("status", status)]))
     else
       let output := "Byteflow API Status: " ++ py_str status in
       let output :=
         if len output >? CHARACTER_LIMIT
         then slice_to output (CHARACTER_LIMIT - 3) ++ "..."
         else output in
       ret output)
    (fun e =>
       error_message <- lift (_handle_api_error e) ;;
       if ResponseFormat_eqb (response_format params) JSON
       then ret (py_str (PyDict [("error", PyStr error_message)]))
       else
         let output := "Byteflow API Status: Error - " ++ error_message in
         let output :=
           if len output >? CHARACTER_LIMIT
           then slice_to output (CHARACTER_LIMIT - 3) ++ "..."
           else output in
         ret output).

(** ** Input validation

    [ByteflowGetHealthInput], lines 27-38, is a pydantic model with
    [extra='forbid'] and one field, [response_format], an enum with the
    default [MARKDOWN].  [str_strip_whitespace] concerns plain [str] fields;
    the model has none.  Building the model from the arguments of a call
    collects one error per offending field. *)

Inductive validation_error : Type :=
| model_type                       (* the arguments are not an object *)
| enum (field : string)            (* the value is no member of the enum *)
| extra_forbidden (field : string) (* a field the model does not declare *)
| missing_argument (name : string) (* the call has no value for the parameter *).

(** The member of [ResponseFormat] with the given value. *)
Definition ResponseFormat_of_value (v : py_value) : option ResponseFormat :=
  match v with
  | PyStr s =>
      if String.eqb s "markdown" then Some MARKDOWN
      else if String.eqb s "json" then Some JSON
      else None
  | _ => None
  end.

Fixpoint dict_lookup (items : list (string * py_value)) (key : string)
  : option py_value :=
  match items with
  | [] => None
  | (k, v) :: rest => if String.eqb k key then Some v else dict_lookup rest key
  end.

Definition extra_fields (items : list (string * py_value)) : list string :=
  filter (fun k => negb (String.eqb k "response_format")) (map fst items).

Definition ByteflowGetHealthInput_validate (arguments : py_value)
  : list validation_error + ByteflowGetHealthInput :=
  match arguments with
  | PyDict items =>
      let field :=
        match dict_lookup items "response_format" with
        | None => inr MARKDOWN
        | Some v =>
            match ResponseFormat_of_value v with
            | Some f => inr f
            | None => inl [enum "response_format"]
            end
        end in
      let extras := map extra_forbidden (extra_fields items) in
      match field, extras with
      | inr f, [] => inr (mkInput f)
      | inr _, _ => inl extras
      | inl errors, _ => inl (errors ++ extras)%list
      end
  | _ => inl [model_type]
  end.

(** One invocation of the tool by the host.  The tool has one parameter,
    [params: ByteflowGetHealthInput] (line 85).  The host finds the value
    for it among the arguments of the call ([host_bind], the framework's own
    and not part of the module; [None] when it finds none), builds the model
    from that value, and runs the body on the model: the body takes a
    [ByteflowGetHealthInput] and nothing else. *)
Inductive invocation : Type :=
| Rejected (errors : list validation_error)
| Ran (r : result string).

Definition call_tool (host_bind : py_value -> option py_value)
           (arguments : py_value) (w : remote)
  : list http_request * invocation :=
  match host_bind arguments with
  | None => ([], Rejected [missing_argument "params"])
  | Some value =>
      match ByteflowGetHealthInput_validate value with
      | inl errors => ([], Rejected errors)
      | inr params => let (sent, r) := byteflow_get_health params w in (sent, Ran r)
      end
  end.

(** The binding by parameter name: the arguments are an object and the
    value is its member "params". *)
Definition bind_by_name (arguments : py_value) : option py_value :=
  match arguments with
  | PyDict members => dict_lookup members "params"
  | _ => None
  end.

(** ** The vocabulary of the specification

    The definitions below follow the words of the design document; the
    lemmas after them tie each one to the code. *)

(** The single request of an invocation: [GET {base_url}/api/health] with a
    30-second timeout. *)
Definition health_request : http_request :=
  mkRequest "GET" API_BASE_URL "api/health" 30.

(** The cap on a rendered line: beyond the limit, the first
    [CHARACTER_LIMIT - 3] characters and an ellipsis. *)
Definition capped (output : string) : string :=
  if len output >? CHARACTER_LIMIT
  then slice_to output (CHARACTER_LIMIT - 3) ++ "..."
  else output.

(** HealthStatus or the error of the invocation: the [status] the try block
    reaches, or the exception that leaves it. *)
Definition health_status (w : remote) : result py_value :=
  match w health_request with
  | TransportRaises cls message => Raises (Raised cls message)
  | Responds r =>
      match raise_for_status r with
      | Raises e => Raises e
      | Returns _ =>
          match Response_json r with
          | Raises e => Raises e
          | Returns response_data => py_get response_data "status" (PyStr "UNKNOWN")
          end
      end
  end.

(** The rendered output of the success path, before any cap. *)
Definition success_rendered (f : ResponseFormat) (status : py_value) : string :=
  match f with
  | JSON => py_str (PyDict [("status", status)])
  | MARKDOWN => "Byteflow API Status: " ++ py_str status
  end.

(** The rendered output of the failure path, before any cap. *)
Definition error_rendered (f : ResponseFormat) (message : string) : string :=
  match f with
  | JSON => py_str (PyDict [("error", PyStr message)])
  | MARKDOWN => "Byteflow API Status: Error - " ++ message
  end.

(** The success template and the error template: the rendered output as the
    tool returns it, the markdown line capped. *)
Definition success_template (f : ResponseFormat) (status : py_value) : string :=
  match f with
  | JSON => success_rendered JSON status
  | MARKDOWN => capped (success_rendered MARKDOWN status)
  end.

Definition error_template (f : ResponseFormat) (message : string) : string :=
  match f with
  | JSON => error_rendered JSON message
  | MARKDOWN => capped (error_rendered MARKDOWN message)
  end.

(** The rendered output of an invocation, when one is rendered. *)
Definition rendered (f : ResponseFormat) (w : remote) : result string :=
  match health_status w with
  | Returns status => Returns (success_rendered f status)
  | Raises e =>
      if is_Exception e
      then match _handle_api_error e with
           | Returns message => Returns (error_rendered f message)
           | Raises x => Raises x
           end
      else Raises e
  end.

(** A text of [n] copies of one character. *)
Fixpoint replicate (n : nat) (c : ascii) : string :=
  match n with
  | O => EmptyString
  | S n' => String c (replicate n' c)
  end.

(** A remote end that answers every request with the same response. *)
Definition always (r : Response) : remote := fun _ => Responds r.

(** The body text of the JSON object with the single member ["status"]. *)
Definition status_body (status : string) : string :=
  "{" ++ String dquote ("status" ++ String dquote (": " ++
    String dquote (status ++ String dquote "}"))).

(** ** Remote ends used as examples *)

(** A remote end that reports the status "UP". *)
Definition up_remote : remote :=
  always (mkResponse 200 (status_body "UP") (Parsed (PyDict [("status", PyStr "UP")]))).

(** A remote end that answers 200 with the JSON array [[]]. *)
Definition array_remote : remote :=
  always (mkResponse 200 "[]" (Parsed (PyList []))).

(** A status of 25000 characters, and the remote end that reports it. *)
Definition long_status : string := replicate (Z.to_nat 25000) "a".

Definition long_status_remote : remote :=
  always (mkResponse 200 (status_body long_status)
                     (Parsed (PyDict [("status", PyStr long_status)]))).

(** A remote end that answers HTTP 500 with a plain-text body. *)
Definition internal_error_remote : remote :=
  always (mkResponse 500 "Internal Server Error"
                     (Undecodable "Expecting value: line 1 column 1 (char 0)")).

(** A remote end that answers HTTP 503 with an HTML page. *)
Definition unavailable_remote : remote :=
  always (mkResponse 503 "<html><body>Service Unavailable</body></html>"
                     (Undecodable "Expecting value: line 1 column 1 (char 0)")).

(** A 500 whose body is the JSON object with one member. *)
Definition detail_response : Response :=
  mkResponse 500
    ("{" ++ String dquote ("detail" ++ String dquote (": " ++
       String dquote ("boom" ++ String dquote "}"))))
    (Parsed (PyDict [("detail", PyStr "boom")])).

(** A remote end that answers HTTP 502 with a plain-text body. *)
Definition bad_gateway_remote : remote :=
  always (mkResponse 502 "Bad Gateway"
                     (Undecodable "Expecting value: line 1 column 1 (char 0)")).

(** The four status codes with a fixed sentence. *)
Definition fixed_sentence_code (code : Z) : bool :=
  (code =? 404) || (code =? 403) || (code =? 401) || (code =? 429).

(** The two ends of the except block: the exception is caught and the
    classifier returns or raises, or the exception is not caught. *)
Ltac caught_or_not f :=
  destruct (is_Exception _);
  [destruct (_handle_api_error _); [destruct f|]|]; reflexivity.

(** Closed facts are settled by running the definitions.  An equation is
    checked by evaluating its left side against the right side as written,
    so that a long text never has to be spelled out. *)
Ltac evaluate :=
  lazymatch goal with
  | |- @eq ?A _ ?y => vm_cast_no_check (@eq_refl A y)
  | |- _ => vm_compute; reflexivity
  end.

(** ** Classes and separators used by the classifier's messages *)

(** [httpx.TimeoutException] and its subclasses. *)
Definition timeout_classes : list exn_class :=
  [TimeoutException; ConnectTimeout; ReadTimeout; WriteTimeout; PoolTimeout].

(** The subclasses of [httpx.RequestError] that are no timeouts, and
    [RequestError] itself. *)
Definition network_classes : list exn_class :=
  [RequestError; TransportError; NetworkError; ConnectError; ReadError;
   WriteError; CloseError; ProtocolError; LocalProtocolError;
   RemoteProtocolError; ProxyError; UnsupportedProtocol; DecodingError;
   TooManyRedirects].

(** Whether the text holds a colon followed by a space, the separator of
    the f-strings of lines 72 and 73. *)
Fixpoint has_sep (s : string) : bool :=
  match s with
  | EmptyString => false
  | String c t =>
      (Ascii.eqb c ":" && match t with
                          | String d _ => Ascii.eqb d " "
                          | EmptyString => false
                          end)
      || has_sep t
  end.

(** The request [_make_api_request] sends for an endpoint and a method. *)
Definition api_request (endpoint method : string) : http_request :=
  mkRequest method API_BASE_URL endpoint 30.

(** ** Strings: lengths, slices, prefixes *)

Section StringFacts.

Lemma length_append (a b : string) :
  String.length (a ++ b) = (String.length a + String.length b)%nat.
Proof. induction a as [|c a IH]; simpl; [reflexivity | now rewrite IH]. Qed.

Lemma len_append (a b : string) : len (a ++ b) = len a + len b.
Proof. unfold len. rewrite length_append. lia. Qed.

Lemma len_nonneg (s : string) : 0 <= len s.
Proof. unfold len. lia. Qed.

Lemma length_take (n : nat) (s : string) :
  String.length (take n s) = Nat.min n (String.length s).
Proof.
  revert s. induction n as [|n IH]; intros [|c s]; simpl; try reflexivity.
  now rewrite IH.
Qed.

Lemma len_slice_to (s : string) (stop : Z) :
  0 <= stop <= len s -> len (slice_to s stop) = stop.
Proof.
  intros [H0 H1]. unfold slice_to.
  destruct (Z.ltb_spec stop 0) as [Hneg|_]; [lia|].
  unfold len in *. rewrite length_take. lia.
Qed.

Lemma drop_append (a p : string) : drop (String.length a) (a ++ p) = p.
Proof. induction a as [|c a IH]; simpl; [now destruct p | exact IH]. Qed.

Lemma endswith_append (a p : string) : endswith (a ++ p) p = true.
Proof.
  unfold endswith. rewrite length_append.
  replace (String.length a + String.length p - String.length p)%nat
    with (String.length a) by lia.
  rewrite drop_append, String.eqb_refl, andb_true_r.
  apply Nat.leb_le. lia.
Qed.

Lemma prefix_self_append (p s : string) : String.prefix p (p ++ s) = true.
Proof.
  induction p as [|c p IH]; simpl; [now destruct s|].
  destruct (ascii_dec c c) as [_|Hc]; [exact IH | now elim Hc].
Qed.

Lemma prefix_append (a s p : string) :
  String.prefix p s = true -> String.prefix (a ++ p) (a ++ s) = true.
Proof.
  intros H. induction a as [|c a IH]; simpl; [exact H|].
  destruct (ascii_dec c c) as [_|Hc]; [exact IH | now elim Hc].
Qed.

Lemma prefix_take_append (p s t : string) (n : nat) :
  String.prefix p s = true -> (String.length p <= n)%nat ->
  String.prefix p (take n s ++ t) = true.
Proof.
  revert s n. induction p as [|c p IH]; intros s n H Hn.
  - now destruct (take n s ++ t).
  - destruct s as [|d s]; simpl in H; [discriminate|].
    destruct (ascii_dec c d) as [->|]; [|discriminate].
    destruct n as [|n]; simpl in Hn; [lia|]. simpl.
    destruct (ascii_dec d d) as [_|Hd]; [|now elim Hd].
    apply IH; [exact H | lia].
Qed.

(** Beyond the limit the capped line is exactly [CHARACTER_LIMIT] long. *)
Lemma capped_long (output : string) :
  len output > CHARACTER_LIMIT ->
  capped output = slice_to output (CHARACTER_LIMIT - 3) ++ "..."
  /\ len (capped output) = CHARACTER_LIMIT
  /\ endswith (capped output) "..." = true.
Proof.
  intros H. unfold capped.
  destruct (Z.gtb_spec (len output) CHARACTER_LIMIT) as [_|Hle]; [|lia].
  split; [reflexivity|]. split; [|apply endswith_append].
  rewrite len_append, len_slice_to; unfold CHARACTER_LIMIT in *; [|lia].
  reflexivity.
Qed.

Lemma capped_short (output : string) :
  len output <= CHARACTER_LIMIT -> capped output = output.
Proof.
  intros H. unfold capped.
  destruct (Z.gtb_spec (len output) CHARACTER_LIMIT) as [Hgt|_]; [lia|reflexivity].
Qed.

(** The cap never lets a line grow past the limit. *)
Lemma len_capped (output : string) : len (capped output) <= CHARACTER_LIMIT.
Proof.
  destruct (Z_gt_le_dec (len output) CHARACTER_LIMIT) as [H|H].
  - destruct (capped_long output H) as (_ & Hlen & _). lia.
  - now rewrite capped_short.
Qed.

(** A prefix shorter than the cut survives the cap. *)
Lemma startswith_capped (output p : string) :
  startswith output p = true -> len p <= CHARACTER_LIMIT - 3 ->
  startswith (capped output) p = true.
Proof.
  unfold startswith, capped. intros H Hp.
  destruct (len output >? CHARACTER_LIMIT); [|exact H].
  unfold slice_to. destruct (Z.ltb_spec (CHARACTER_LIMIT - 3) 0) as [Hneg|_].
  - unfold CHARACTER_LIMIT in Hneg. lia.
  - apply prefix_take_append; [exact H|]. unfold len in Hp. lia.
Qed.

End StringFacts.

(** ** The tool in the vocabulary of the specification *)

(** Every invocation sends the one health request, then either renders the
    status through the success template or, for an exception that
    [except Exception] catches, classifies it and renders the message
    through the error template; an exception that is not caught, or that
    leaves the classifier, leaves the tool. *)
Lemma byteflow_get_health_run (params : ByteflowGetHealthInput) (w : remote) :
  byteflow_get_health params w =
  ([health_request],
   match health_status w with
   | Returns status => Returns (success_template (response_format params) status)
   | Raises e =>
       if is_Exception e
       then match _handle_api_error e with
            | Returns message =>
                Returns (error_template (response_format params) message)
            | Raises x => Raises x
            end
       else Raises e
   end).
Proof.
  destruct params as [f].
  cbv beta iota zeta delta [byteflow_get_health try_except bind _make_api_request
    client_request lift ret health_status response_format].
  change (mkRequest "GET" API_BASE_URL "api/health" 30) with health_request.
  destruct (w health_request) as [cls message|r]; cbn [app].
  - caught_or_not f.
  - destruct (raise_for_status r) as [[]|e].
    + destruct (Response_json r) as [data|e].
      * destruct (py_get data "status" (PyStr "UNKNOWN")) as [status|e].
        -- destruct f; reflexivity.
        -- caught_or_not f.
      * caught_or_not f.
    + caught_or_not f.
Qed.

Lemma byteflow_get_health_result (f : ResponseFormat) (w : remote) :
  snd (byteflow_get_health (mkInput f) w) =
  match rendered f w with
  | Returns output => Returns (match f with MARKDOWN => capped output | JSON => output end)
  | Raises x => Raises x
  end.
Proof.
  rewrite byteflow_get_health_run. unfold rendered. cbn [snd response_format].
  destruct (health_status w) as [status|e].
  - destruct f; reflexivity.
  - caught_or_not f.
Qed.

(** Whatever decoding a body raises is of a builtin class; [httpx.ReadError]
    is not among them, so the handler of line 66 never applies. *)
Lemma Response_json_raises (r : Response) (x : exn) :
  Response_json r = Raises x -> exists name message, x = Raised (Builtin name) message.
Proof.
  unfold Response_json. destruct (body_json r) as [v|message|name message].
  - discriminate.
  - intros [= <-]. now exists "JSONDecodeError", message.
  - intros [= <-]. now exists name, message.
Qed.

Lemma Response_json_not_ReadError (r : Response) (x : exn) :
  Response_json r = Raises x -> isinstance x ReadError = false.
Proof.
  intros H. apply Response_json_raises in H as (name & message & ->). reflexivity.
Qed.

(** The classifier lets an exception out in one situation only: a status
    error outside the four fixed codes whose body does not decode.  The
    exception is the one [e.response.json()] raises. *)
Lemma _handle_api_error_raises (e x : exn) :
  _handle_api_error e = Raises x <->
  exists r,
    e = HTTPStatusError r /\ fixed_sentence_code (status_code r) = false
    /\ Response_json r = Raises x.
Proof.
  unfold fixed_sentence_code, _handle_api_error. split.
  - destruct e as [r|cls message].
    + destruct (status_code r =? 404) eqn:H404; [discriminate|].
      destruct (status_code r =? 403) eqn:H403; [discriminate|].
      destruct (status_code r =? 401) eqn:H401; [discriminate|].
      destruct (status_code r =? 429) eqn:H429; [discriminate|].
      destruct (Response_json r) as [v|y] eqn:Hj; [discriminate|].
      rewrite (Response_json_not_ReadError r y Hj). intros [= <-].
      exists r. rewrite H404, H403, H401, H429, Hj. repeat split; auto.
    + destruct (issubclass cls TimeoutException); [discriminate|].
      destruct (issubclass cls RequestError); discriminate.
  - intros (r & -> & Hcode & Hj).
    destruct (status_code r =? 404); [discriminate|].
    destruct (status_code r =? 403); [discriminate|].
    destruct (status_code r =? 401); [discriminate|].
    destruct (status_code r =? 429); [discriminate|].
    rewrite Hj. now rewrite (Response_json_not_ReadError r x Hj).
Qed.

(** Every message the classifier returns carries the prefix. *)
Lemma _handle_api_error_prefix (e : exn) (message : string) :
  _handle_api_error e = Returns message -> startswith message "Error: " = true.
Proof.
  unfold startswith, _handle_api_error. destruct e as [r|cls m].
  - destruct (status_code r =? 404); [intros [= <-]; exact (prefix_self_append "Error: " _)|].
    destruct (status_code r =? 403); [intros [= <-]; exact (prefix_self_append "Error: " _)|].
    destruct (status_code r =? 401); [intros [= <-]; exact (prefix_self_append "Error: " _)|].
    destruct (status_code r =? 429); [intros [= <-]; exact (prefix_self_append "Error: " _)|].
    destruct (Response_json r) as [v|x].
    + intros [= <-]; exact (prefix_self_append "Error: " _).
    + destruct (isinstance x ReadError); [intros [= <-]; exact (prefix_self_append "Error: " _) | discriminate].
  - destruct (issubclass cls TimeoutException); [intros [= <-]; exact (prefix_self_append "Error: " _)|].
    destruct (issubclass cls RequestError); intros [= <-]; exact (prefix_self_append "Error: " _).
Qed.

Lemma dict_get_lookup (items : list (string * py_value)) (key : string)
      (default : py_value) :
  dict_get items key default =
  match dict_lookup items key with
  | Some v => v
  | None => default
  end.
Proof.
  induction items as [|[k v] rest IH]; simpl; [reflexivity|].
  destruct (String.eqb k key); [reflexivity | exact IH].
Qed.

(** The status of a 2xx response whose body is a JSON object. *)
Lemma health_status_object (w : remote) (r : Response)
      (items : list (string * py_value)) :
  w health_request = Responds r ->
  200 <= status_code r <= 299 ->
  body_json r = Parsed (PyDict items) ->
  health_status w = Returns (dict_get items "status" (PyStr "UNKNOWN")).
Proof.
  intros Hw [Hlo Hhi] Hbody. unfold health_status, raise_for_status, Response_json.
  rewrite Hw, Hbody.
  apply Z.leb_le in Hlo. apply Z.leb_le in Hhi. rewrite Hlo, Hhi. reflexivity.
Qed.

(** Whenever the exception is caught and the classifier returns its
    message, the failure is rendered through the error template. *)
Lemma byteflow_get_health_failure (f : ResponseFormat) (w : remote) (e : exn)
      (message : string) :
  health_status w = Raises e ->
  is_Exception e = true ->
  _handle_api_error e = Returns message ->
  snd (byteflow_get_health (mkInput f) w) = Returns (error_template f message).
Proof.
  intros Hs He Hm. rewrite byteflow_get_health_run. cbn [snd response_format].
  now rewrite Hs, He, Hm.
Qed.

(** The status of a 2xx response whose body decodes: what [get] gives. *)
Lemma health_status_parsed (w : remote) (r : Response) (v : py_value) :
  w health_request = Responds r ->
  200 <= status_code r <= 299 ->
  body_json r = Parsed v ->
  health_status w = py_get v "status" (PyStr "UNKNOWN").
Proof.
  intros Hw [Hlo Hhi] Hbody. unfold health_status, raise_for_status, Response_json.
  rewrite Hw, Hbody.
  apply Z.leb_le in Hlo. apply Z.leb_le in Hhi. rewrite Hlo, Hhi. reflexivity.
Qed.

(** ** The output cap (C1) *)

(** In json format the rendered output of 25014 characters comes back as it
    is: longer than the limit, and without the ellipsis. *)
Lemma C1_json_output_exceeds_limit :
  rendered JSON long_status_remote
    = Returns (py_str (PyDict [("status", PyStr long_status)]))
  /\ snd (byteflow_get_health (mkInput JSON) long_status_remote)
     = Returns (py_str (PyDict [("status", PyStr long_status)]))
  /\ len (py_str (PyDict [("status", PyStr long_status)])) = 25014
  /\ endswith (py_str (PyDict [("status", PyStr long_status)])) "..." = false.
Proof. repeat split; evaluate. Qed.

(** C1, as amended: in markdown format a rendered output of more than 25000
    characters comes back as its first 24997 characters followed by "...",
    which is exactly 25000 characters long; in json format the rendered
    output comes back without a cap. *)
Theorem C1_markdown_output_capped :
  forall (f : ResponseFormat) (w : remote) (output : string),
    rendered f w = Returns output ->
    len output > CHARACTER_LIMIT ->
    match f with
    | MARKDOWN =>
        snd (byteflow_get_health (mkInput MARKDOWN) w)
          = Returns (slice_to output 24997 ++ "...")
        /\ len (slice_to output 24997 ++ "...") = 25000
        /\ endswith (slice_to output 24997 ++ "...") "..." = true
    | JSON => snd (byteflow_get_health (mkInput JSON) w) = Returns output
    end.
Proof.
  intros f w output Hrendered Hlong.
  destruct f; rewrite byteflow_get_health_result, Hrendered; [|reflexivity].
  destruct (capped_long output Hlong) as (Hcap & Hlen & Hend).
  change (CHARACTER_LIMIT - 3) with 24997 in Hcap.
  rewrite Hcap in *. repeat split; assumption.
Qed.

Lemma C1_markdown_output_capped_witness :
  rendered MARKDOWN long_status_remote
    = Returns ("Byteflow API Status: " ++ long_status)
  /\ len ("Byteflow API Status: " ++ long_status) > CHARACTER_LIMIT
  /\ snd (byteflow_get_health (mkInput MARKDOWN) long_status_remote)
     = Returns (slice_to ("Byteflow API Status: " ++ long_status) 24997 ++ "...")
  /\ len (slice_to ("Byteflow API Status: " ++ long_status) 24997 ++ "...") = 25000
  /\ endswith (slice_to ("Byteflow API Status: " ++ long_status) 24997 ++ "...") "..."
     = true.
Proof.
  split; [evaluate|]. split; [evaluate|].
  apply (C1_markdown_output_capped MARKDOWN long_status_remote
           ("Byteflow API Status: " ++ long_status)); evaluate.
Defined.

(** ** Exceptions at the boundary of the tool (C2) *)

(** The tool raises in two situations only.  The transport raises an
    exception that is no instance of [Exception], which [except Exception]
    does not catch.  Or the remote answers with a status outside 2xx and
    outside the four fixed codes and a body that does not decode; then the
    exception raised by [e.response.json()] inside the classifier leaves
    the tool. *)
Lemma byteflow_get_health_raises (params : ByteflowGetHealthInput) (w : remote)
      (x : exn) :
  snd (byteflow_get_health params w) = Raises x <->
  (exists name message,
      w health_request = TransportRaises (BaseOnly name) message
      /\ x = Raised (BaseOnly name) message)
  \/ (exists r,
         w health_request = Responds r
         /\ ((200 <=? status_code r) && (status_code r <=? 299)) = false
         /\ fixed_sentence_code (status_code r) = false
         /\ Response_json r = Raises x).
Proof.
  rewrite byteflow_get_health_run. cbn [snd]. unfold health_status, raise_for_status.
  split.
  - destruct (w health_request) as [cls m|r] eqn:Hw.
    + destruct cls; cbn; try discriminate.
      intros [= <-]. left. now exists name, m.
    + destruct ((200 <=? status_code r) && (status_code r <=? 299)) eqn:Hok.
      * unfold Response_json, py_get.
        destruct (body_json r) as [[| | | | | |items]|m|name m]; cbn; discriminate.
      * cbn [is_Exception].
        destruct (_handle_api_error (HTTPStatusError r)) as [s|y] eqn:Hh;
          [discriminate|].
        intros [= ->]. apply _handle_api_error_raises in Hh.
        destruct Hh as (r' & [= <-] & Hcode & Hj).
        right. exists r. repeat split; auto.
  - intros [(name & message & -> & ->)|(r & -> & Hok & Hcode & Hj)];
      [reflexivity|].
    rewrite Hok. cbn [is_Exception].
    assert (Hh : _handle_api_error (HTTPStatusError r) = Raises x).
    { apply _handle_api_error_raises. exists r. repeat split; auto. }
    now rewrite Hh.
Qed.

(** C2, at the failing input: HTTP 500 with a body that is not JSON.  The
    classifier asks for [e.response.json()], which raises a
    [JSONDecodeError]; its handler catches [httpx.ReadError] only, and the
    exception leaves the classifier and the tool. *)
Theorem C2_non_json_error_body_raises :
  snd (byteflow_get_health (mkInput MARKDOWN) internal_error_remote)
  = Raises (Raised (Builtin "JSONDecodeError")
                   "Expecting value: line 1 column 1 (char 0)").
Proof. reflexivity. Qed.

(** ** The classifier on status errors (C3, C4) *)

(** The classifier's sentence for 404 is not the bare sentence: it carries
    the prefix. *)
Lemma C3_fixed_sentence_has_prefix :
  _handle_api_error (HTTPStatusError (mkResponse 404 "Not Found" (Undecodable "")))
    <> Returns "Resource not found."
  /\ _handle_api_error (HTTPStatusError (mkResponse 404 "Not Found" (Undecodable "")))
     = Returns "Error: Resource not found.".
Proof. split; [discriminate | reflexivity]. Qed.

(** C3, as amended: for the status codes 404, 403, 401 and 429 the
    classifier returns the fixed sentence with the prefix "Error: ",
    whatever the body of the response. *)
Theorem C3_fixed_sentences :
  forall (body : string) (parsed : decoded),
    _handle_api_error (HTTPStatusError (mkResponse 404 body parsed))
      = Returns "Error: Resource not found."
    /\ _handle_api_error (HTTPStatusError (mkResponse 403 body parsed))
       = Returns "Error: Permission denied."
    /\ _handle_api_error (HTTPStatusError (mkResponse 401 body parsed))
       = Returns "Error: Authentication failed."
    /\ _handle_api_error (HTTPStatusError (mkResponse 429 body parsed))
       = Returns "Error: Rate limit exceeded.".
Proof. intros body parsed. repeat split; reflexivity. Qed.

(** The message for another status does not begin with "API request
    failed": it carries the prefix too. *)
Lemma C4_message_has_prefix :
  _handle_api_error (HTTPStatusError detail_response)
    = Returns "Error: API request failed with status 500: {'detail': 'boom'}"
  /\ _handle_api_error (HTTPStatusError detail_response)
     <> Returns "API request failed with status 500: {'detail': 'boom'}".
Proof. split; [reflexivity | discriminate]. Qed.

(** C4, as amended: for a status error with another code whose body parses
    as JSON, the classifier returns "Error: API request failed with status
    {code}: {body}", the body printed the way Python prints the parsed
    value. *)
Theorem C4_other_status_parsed_body :
  forall (r : Response) (error_detail : py_value),
    fixed_sentence_code (status_code r) = false ->
    body_json r = Parsed error_detail ->
    _handle_api_error (HTTPStatusError r)
    = Returns ("Error: API request failed with status "
                 ++ str_int (status_code r) ++ ": " ++ py_str error_detail).
Proof.
  intros r error_detail Hcode Hbody. unfold fixed_sentence_code in Hcode.
  apply orb_false_elim in Hcode as [Hcode H429].
  apply orb_false_elim in Hcode as [Hcode H401].
  apply orb_false_elim in Hcode as [H404 H403].
  unfold _handle_api_error, Response_json.
  now rewrite H404, H403, H401, H429, Hbody.
Qed.

Lemma C4_other_status_parsed_body_witness :
  fixed_sentence_code (status_code detail_response) = false
  /\ body_json detail_response = Parsed (PyDict [("detail", PyStr "boom")])
  /\ _handle_api_error (HTTPStatusError detail_response)
     = Returns ("Error: API request failed with status "
                  ++ str_int (status_code detail_response) ++ ": "
                  ++ py_str (PyDict [("detail", PyStr "boom")])).
Proof.
  split; [reflexivity|]. split; [reflexivity|].
  apply (C4_other_status_parsed_body detail_response
           (PyDict [("detail", PyStr "boom")])); reflexivity.
Defined.

(** ** The success path (C5) *)

(** A successful response whose payload is not an object has no [get]: the
    [AttributeError] is caught and the error line comes back, not the line
    for the default status. *)
Lemma C5_array_payload_gives_error_line :
  snd (byteflow_get_health (mkInput MARKDOWN) array_remote)
    = Returns ("Byteflow API Status: Error - Error: AttributeError: "
                 ++ "'list' object has no attribute 'get'")
  /\ snd (byteflow_get_health (mkInput MARKDOWN) array_remote)
     <> Returns "Byteflow API Status: UNKNOWN".
Proof. split; [reflexivity | discriminate]. Qed.

(** C5, as amended: for a 2xx response whose body is a JSON object, the
    status is the member "status", or "UNKNOWN" when the object has none;
    the tool returns "Byteflow API Status: {status}" under the cap in
    markdown format (the line itself when it fits the limit) and the string
    form of the dict with the one key "status" in json format.  For a 2xx
    response whose body decodes to a value that is no object, the tool
    returns the error template with the message of the [AttributeError]
    that [get] raises on a value of that type. *)
Theorem C5_status_rendering :
  (forall (f : ResponseFormat) (w : remote) (r : Response)
          (items : list (string * py_value)),
      w health_request = Responds r ->
      200 <= status_code r <= 299 ->
      body_json r = Parsed (PyDict items) ->
      let status := match dict_lookup items "status" with
                    | Some v => v
                    | None => PyStr "UNKNOWN"
                    end in
      snd (byteflow_get_health (mkInput f) w)
      = Returns match f with
                | MARKDOWN => capped ("Byteflow API Status: " ++ py_str status)
                | JSON => py_str (PyDict [("status", status)])
                end
      /\ (f = MARKDOWN ->
          len ("Byteflow API Status: " ++ py_str status) <= CHARACTER_LIMIT ->
          snd (byteflow_get_health (mkInput f) w)
          = Returns ("Byteflow API Status: " ++ py_str status)))
  /\ (forall (f : ResponseFormat) (w : remote) (r : Response) (v : py_value),
         w health_request = Responds r ->
         200 <= status_code r <= 299 ->
         body_json r = Parsed v ->
         (forall items, v <> PyDict items) ->
         let message := "Error: AttributeError: '" ++ type_name v
                          ++ "' object has no attribute 'get'" in
         snd (byteflow_get_health (mkInput f) w)
         = Returns match f with
                   | MARKDOWN => "Byteflow API Status: Error - " ++ message
                   | JSON => py_str (PyDict [("error", PyStr message)])
                   end).
Proof.
  split.
  - intros f w r items Hw Hcode Hbody status.
    assert (Hrun : snd (byteflow_get_health (mkInput f) w)
                   = Returns (success_template f status)).
    { rewrite byteflow_get_health_run. cbn [snd response_format].
      rewrite (health_status_object w r items Hw Hcode Hbody), dict_get_lookup.
      reflexivity. }
    split.
    + rewrite Hrun. destruct f; reflexivity.
    + intros -> Hfits. rewrite Hrun. cbn [success_template success_rendered].
      now rewrite capped_short.
  - intros f w r v Hw Hcode Hbody Hnot message. subst message.
    pose proof (health_status_parsed w r v Hw Hcode Hbody) as Hs.
    destruct v as [| | | | | |items]; try (now elim (Hnot items));
      cbn in Hs;
      rewrite (byteflow_get_health_failure f w _ _ Hs eq_refl eq_refl);
      destruct f; reflexivity.
Qed.

Lemma C5_status_rendering_witness :
  up_remote health_request
    = Responds (mkResponse 200 (status_body "UP")
                           (Parsed (PyDict [("status", PyStr "UP")])))
  /\ snd (byteflow_get_health (mkInput MARKDOWN) up_remote)
     = Returns "Byteflow API Status: UP"
  /\ snd (byteflow_get_health (mkInput JSON) up_remote)
     = Returns "{'status': 'UP'}"
  /\ snd (byteflow_get_health (mkInput JSON)
            (always (mkResponse 200 "null" (Parsed PyNone))))
     = Returns ("{'error': "
                  ++ String dquote ("Error: AttributeError: 'NoneType' object "
                                      ++ "has no attribute 'get'"
                                      ++ String dquote "}")).
Proof.
  split; [reflexivity|]. split; [|split].
  - apply (proj1 C5_status_rendering MARKDOWN up_remote
             (mkResponse 200 (status_body "UP")
                         (Parsed (PyDict [("status", PyStr "UP")])))
             [("status", PyStr "UP")]);
      [reflexivity | cbn; lia | reflexivity | reflexivity | vm_compute; discriminate].
  - apply (proj1 C5_status_rendering JSON up_remote
             (mkResponse 200 (status_body "UP")
                         (Parsed (PyDict [("status", PyStr "UP")])))
             [("status", PyStr "UP")]);
      [reflexivity | cbn; lia | reflexivity].
  - apply (proj2 C5_status_rendering JSON
             (always (mkResponse 200 "null" (Parsed PyNone)))
             (mkResponse 200 "null" (Parsed PyNone)) PyNone);
      [reflexivity | cbn; lia | reflexivity | discriminate].
Defined.

(** ** The failure path (C6) *)

(** C6, at the failing input: HTTP 503 with a body that is not JSON, json
    format.  No error line is rendered; the [JSONDecodeError] of the
    classifier leaves the tool. *)
Theorem C6_unclassified_failure_raises :
  snd (byteflow_get_health (mkInput JSON) unavailable_remote)
  = Raises (Raised (Builtin "JSONDecodeError")
                   "Expecting value: line 1 column 1 (char 0)")
  /\ snd (byteflow_get_health (mkInput MARKDOWN)
                              (always (mkResponse 404 "Not Found" (Undecodable ""))))
     = Returns "Byteflow API Status: Error - Error: Resource not found.".
Proof. split; reflexivity. Qed.

(** ** Input validation (C7) *)

Lemma ResponseFormat_of_value_member (v : py_value) (f : ResponseFormat) :
  ResponseFormat_of_value v = Some f -> v = PyStr (ResponseFormat_value f).
Proof.
  destruct v as [| | | |s| |]; try discriminate. simpl.
  destruct (String.eqb_spec s "markdown") as [->|_]; [now intros [= <-]|].
  destruct (String.eqb_spec s "json") as [->|_]; [now intros [= <-] | discriminate].
Qed.

Lemma extra_fields_In (items : list (string * py_value)) (k : string) (v : py_value) :
  In (k, v) items -> k <> "response_format" -> In k (extra_fields items).
Proof.
  intros Hin Hk. unfold extra_fields. apply filter_In. split.
  - apply in_map_iff. now exists (k, v).
  - apply negb_true_iff. now apply String.eqb_neq.
Qed.

(** What the model accepts: no undeclared field, and a [response_format]
    that is absent or the value of a member. *)
Lemma ByteflowGetHealthInput_validate_accepts
      (items : list (string * py_value)) (params : ByteflowGetHealthInput) :
  ByteflowGetHealthInput_validate (PyDict items) = inr params ->
  extra_fields items = []
  /\ match dict_lookup items "response_format" with
     | None => response_format params = MARKDOWN
     | Some v => v = PyStr (ResponseFormat_value (response_format params))
     end.
Proof.
  unfold ByteflowGetHealthInput_validate.
  destruct (dict_lookup items "response_format") as [v|].
  - destruct (ResponseFormat_of_value v) as [f|] eqn:Hv; [|discriminate].
    destruct (extra_fields items); [|discriminate].
    intros [= <-]. split; [reflexivity|]. now apply ResponseFormat_of_value_member.
  - destruct (extra_fields items); [|discriminate].
    now intros [= <-].
Qed.

(** C7: however the host finds the value of [params] among the arguments
    of a call, a value whose [response_format] is neither "markdown" nor
    "json", or that holds a field other than [response_format], is rejected
    by the validation and no request is sent; without [response_format] the
    validated model has the markdown format; and a value that validates
    runs the body, which sends the one health request. *)
Theorem C7_invalid_arguments_rejected_before_request :
  forall (host_bind : py_value -> option py_value),
    (forall (arguments : py_value) (items : list (string * py_value)) (w : remote),
        host_bind arguments = Some (PyDict items) ->
        (exists v, dict_lookup items "response_format" = Some v
                   /\ v <> PyStr "markdown" /\ v <> PyStr "json")
        \/ (exists k v, In (k, v) items /\ k <> "response_format") ->
        exists errors,
          errors <> [] /\ call_tool host_bind arguments w = ([], Rejected errors))
    /\ (forall (items : list (string * py_value)),
           dict_lookup items "response_format" = None ->
           extra_fields items = [] ->
           ByteflowGetHealthInput_validate (PyDict items) = inr (mkInput MARKDOWN))
    /\ (forall (arguments value : py_value) (params : ByteflowGetHealthInput)
               (w : remote),
           host_bind arguments = Some value ->
           ByteflowGetHealthInput_validate value = inr params ->
           call_tool host_bind arguments w
           = ([health_request], Ran (snd (byteflow_get_health params w)))).
Proof.
  intros host_bind. split; [|split].
  - intros arguments items w Hbind Hbad. unfold call_tool. rewrite Hbind.
    destruct (ByteflowGetHealthInput_validate (PyDict items)) as [errors|params] eqn:Hv.
    + exists errors. split; [|reflexivity]. intros ->.
      unfold ByteflowGetHealthInput_validate in Hv.
      destruct (dict_lookup items "response_format") as [v|];
        [destruct (ResponseFormat_of_value v)|];
        try discriminate; destruct (extra_fields items); discriminate.
    + exfalso. apply ByteflowGetHealthInput_validate_accepts in Hv as [Hextra Hfield].
      destruct Hbad as [(v & Hlookup & Hmd & Hjson) | (k & v & Hin & Hk)].
      * rewrite Hlookup in Hfield. destruct (response_format params); auto.
      * apply (extra_fields_In items k v Hin) in Hk. rewrite Hextra in Hk. exact Hk.
  - intros items Hlookup Hextra. unfold ByteflowGetHealthInput_validate.
    now rewrite Hlookup, Hextra.
  - intros arguments value params w Hbind Hv. unfold call_tool.
    rewrite Hbind, Hv, byteflow_get_health_run. reflexivity.
Qed.

Lemma C7_invalid_arguments_rejected_before_request_witness :
  bind_by_name (PyDict [("params", PyDict [("response_format", PyStr "xml")])])
    = Some (PyDict [("response_format", PyStr "xml")])
  /\ (exists errors,
         errors <> []
         /\ call_tool bind_by_name
              (PyDict [("params", PyDict [("response_format", PyStr "xml")])])
              up_remote
            = ([], Rejected errors))
  /\ (exists errors,
         errors <> []
         /\ call_tool bind_by_name
              (PyDict [("params", PyDict [("response_format", PyStr "json");
                                         ("verbose", PyBool true)])])
              up_remote
            = ([], Rejected errors))
  /\ ByteflowGetHealthInput_validate (PyDict []) = inr (mkInput MARKDOWN)
  /\ call_tool bind_by_name
       (PyDict [("params", PyDict [("response_format", PyStr "json")])]) up_remote
     = ([health_request],
        Ran (snd (byteflow_get_health (mkInput JSON) up_remote))).
Proof.
  pose proof (C7_invalid_arguments_rejected_before_request bind_by_name)
    as (Hreject & Hdefault & Hrun).
  split; [reflexivity|]. split; [|split; [|split]].
  - apply (Hreject (PyDict [("params", PyDict [("response_format", PyStr "xml")])])
                   [("response_format", PyStr "xml")] up_remote eq_refl).
    left. exists (PyStr "xml"). repeat split; discriminate || reflexivity.
  - apply (Hreject
             (PyDict [("params", PyDict [("response_format", PyStr "json");
                                        ("verbose", PyBool true)])])
             [("response_format", PyStr "json"); ("verbose", PyBool true)]
             up_remote eq_refl).
    right. exists "verbose", (PyBool true). split; [simpl; auto | discriminate].
  - apply (Hdefault []); reflexivity.
  - apply (Hrun (PyDict [("params", PyDict [("response_format", PyStr "json")])])
                (PyDict [("response_format", PyStr "json")]) (mkInput JSON)
                up_remote); reflexivity.
Defined.

(** Calls bound by parameter name, evaluated: an unknown format and an
    unknown field inside [params], arguments without [params], and an
    accepted call. *)
Example call_tool_xml :
  call_tool bind_by_name
    (PyDict [("params", PyDict [("response_format", PyStr "xml")])]) up_remote
  = ([], Rejected [enum "response_format"]).
Proof. reflexivity. Qed.

Example call_tool_unknown_field :
  call_tool bind_by_name
    (PyDict [("params", PyDict [("response_format", PyStr "json");
                               ("verbose", PyBool true)])]) up_remote
  = ([], Rejected [extra_forbidden "verbose"]).
Proof. reflexivity. Qed.

Example call_tool_without_params :
  call_tool bind_by_name (PyDict [("response_format", PyStr "json")]) up_remote
  = ([], Rejected [missing_argument "params"]).
Proof. reflexivity. Qed.

Example call_tool_json :
  call_tool bind_by_name
    (PyDict [("params", PyDict [("response_format", PyStr "json")])]) up_remote
  = ([health_request], Ran (Returns "{'status': 'UP'}")).
Proof. reflexivity. Qed.

(** ** One template per invocation (C8) *)

(** A string that is returned comes from one template: from the success
    template and the status of the response, or from the error template and
    the message of the classified exception, and the two paths exclude each
    other. *)
Lemma returned_string_from_one_template
      (params : ByteflowGetHealthInput) (w : remote) (output : string) :
  snd (byteflow_get_health params w) = Returns output ->
  let f := response_format params in
  let by_success :=
    exists status,
      health_status w = Returns status /\ output = success_template f status in
  let by_error :=
    exists e message,
      health_status w = Raises e /\ _handle_api_error e = Returns message
      /\ output = error_template f message in
  (by_success \/ by_error) /\ ~ (by_success /\ by_error).
Proof.
  intros Hrun f by_success by_error. subst by_success by_error f.
  rewrite byteflow_get_health_run in Hrun. cbn [snd] in Hrun. split.
  - revert Hrun. destruct (health_status w) as [status|e].
    + intros [= <-]. left. exists status. split; reflexivity.
    + destruct (is_Exception e); [|discriminate].
      destruct (_handle_api_error e) as [message|x] eqn:Hm; [|discriminate].
      intros [= <-]. right. exists e, message. repeat split; auto.
  - intros [(status & Hs & _) (e & message & He & _)]. congruence.
Qed.

(** C8, at the failing input: HTTP 502 with a body that is not JSON.  The
    request fails, so the success template is not used; the classifier
    raises before the error template is reached; the invocation ends by
    raising and no template has produced a string. *)
Theorem C8_no_template_at_undecodable_error_body :
  health_status bad_gateway_remote
    = Raises (HTTPStatusError (mkResponse 502 "Bad Gateway"
                (Undecodable "Expecting value: line 1 column 1 (char 0)")))
  /\ snd (byteflow_get_health (mkInput MARKDOWN) bad_gateway_remote)
     = Raises (Raised (Builtin "JSONDecodeError")
                      "Expecting value: line 1 column 1 (char 0)")
  /\ (forall status,
         snd (byteflow_get_health (mkInput MARKDOWN) bad_gateway_remote)
         <> Returns (success_template MARKDOWN status))
  /\ (forall message,
         snd (byteflow_get_health (mkInput MARKDOWN) bad_gateway_remote)
         <> Returns (error_template MARKDOWN message)).
Proof.
  assert (Hrun : snd (byteflow_get_health (mkInput MARKDOWN) bad_gateway_remote)
                 = Raises (Raised (Builtin "JSONDecodeError")
                                  "Expecting value: line 1 column 1 (char 0)"))
    by reflexivity.
  split; [reflexivity|]. split; [exact Hrun|].
  split; intros x; rewrite Hrun; discriminate.
Qed.

(** ** The prefix of every failure (C10) *)

(** C10: every message the classifier returns begins with "Error: ", and
    every markdown line of the failure path begins with
    "Byteflow API Status: Error - Error: ", capped or not. *)
Theorem C10_error_prefix :
  (forall (e : exn) (message : string),
      _handle_api_error e = Returns message ->
      startswith message "Error: " = true)
  /\ (forall (w : remote) (e : exn) (output : string),
         health_status w = Raises e ->
         snd (byteflow_get_health (mkInput MARKDOWN) w) = Returns output ->
         startswith output "Byteflow API Status: Error - Error: " = true).
Proof.
  split; [exact _handle_api_error_prefix|].
  intros w e output Hs Hrun.
  rewrite byteflow_get_health_run in Hrun. cbn [snd response_format] in Hrun.
  rewrite Hs in Hrun.
  destruct (is_Exception e); [|discriminate].
  destruct (_handle_api_error e) as [message|x] eqn:Hm; [|discriminate].
  injection Hrun as <-. cbn [error_template error_rendered].
  apply startswith_capped; [|vm_compute; discriminate].
  apply (prefix_append "Byteflow API Status: Error - " message "Error: ").
  exact (_handle_api_error_prefix e message Hm).
Qed.

Lemma C10_error_prefix_witness :
  _handle_api_error (Raised ConnectTimeout "") = Returns "Error: Request timed out."
  /\ startswith "Error: Request timed out." "Error: " = true
  /\ health_status (fun _ => TransportRaises ConnectTimeout "")
     = Raises (Raised ConnectTimeout "")
  /\ startswith "Byteflow API Status: Error - Error: Request timed out."
                "Byteflow API Status: Error - Error: " = true.
Proof.
  split; [reflexivity|]. split; [|split; [reflexivity|]].
  - apply (proj1 C10_error_prefix (Raised ConnectTimeout "")). reflexivity.
  - apply (proj2 C10_error_prefix (fun _ => TransportRaises ConnectTimeout "")
                 (Raised ConnectTimeout "")); reflexivity.
Defined.

(** * Further properties of server.py *)

(** ** [_make_api_request], lines 40-50

    The function is called by the tool with the endpoint "api/health" and
    the method "GET" and no further keyword arguments; the lemmas hold for
    every endpoint and method. *)

Lemma _make_api_request_result (endpoint method : string) (w : remote) :
  snd (_make_api_request endpoint method w) =
  match w (api_request endpoint method) with
  | TransportRaises cls message => Raises (Raised cls message)
  | Responds r =>
      match raise_for_status r with
      | Raises e => Raises e
      | Returns _ => Response_json r
      end
  end.
Proof.
  cbv beta iota zeta delta [_make_api_request bind client_request lift].
  change (mkRequest method API_BASE_URL endpoint 30) with (api_request endpoint method).
  destruct (w (api_request endpoint method)) as [cls message|r]; [reflexivity|].
  destruct (raise_for_status r) as [[]|e]; [|reflexivity].
  destruct (Response_json r); reflexivity.
Qed.

Lemma raise_for_status_returns (r : Response) :
  raise_for_status r = Returns tt <-> 200 <= status_code r <= 299.
Proof.
  unfold raise_for_status.
  destruct (Z.leb_spec 200 (status_code r)) as [Hlo|Hlo],
           (Z.leb_spec (status_code r) 299) as [Hhi|Hhi];
    cbn; split; intros Hr; try discriminate; try reflexivity; lia.
Qed.

Lemma raise_for_status_raises (r : Response) (e : exn) :
  raise_for_status r = Raises e <->
  e = HTTPStatusError r /\ (status_code r < 200 \/ 299 < status_code r).
Proof.
  unfold raise_for_status.
  destruct (Z.leb_spec 200 (status_code r)) as [Hlo|Hlo],
           (Z.leb_spec (status_code r) 299) as [Hhi|Hhi];
    cbn; split; try discriminate;
    try (intros [_ [Hc|Hc]]; lia);
    try (intros [= <-]; split; [reflexivity | lia]);
    intros [-> _]; reflexivity.
Qed.

(** X1: one call sends exactly one request, with the given method and
    endpoint, the fixed base URL and the 30-second timeout, whatever comes
    back: there is no second attempt after a transport error, an error
    status or an undecodable body. *)
Theorem make_api_request_sends_one_request :
  forall (endpoint method : string) (w : remote),
    fst (_make_api_request endpoint method w)
    = [mkRequest method "https://apidoc.byteflow.bot" endpoint 30].
Proof.
  intros endpoint method w.
  cbv beta iota zeta delta [_make_api_request bind client_request lift].
  change (mkRequest method API_BASE_URL endpoint 30) with (api_request endpoint method).
  destruct (w (api_request endpoint method)) as [cls message|r]; [reflexivity|].
  destruct (raise_for_status r) as [[]|e]; [|reflexivity].
  destruct (Response_json r); reflexivity.
Qed.

(** X2: the call raises [HTTPStatusError] exactly when a response arrives
    whose status lies outside 200..299, and the exception carries that
    response; the body is not decoded first, so this holds whether the body
    is JSON or not. *)
Theorem make_api_request_status_error_iff :
  forall (endpoint method : string) (w : remote) (r : Response),
    snd (_make_api_request endpoint method w) = Raises (HTTPStatusError r)
    <-> w (api_request endpoint method) = Responds r
        /\ (status_code r < 200 \/ 299 < status_code r).
Proof.
  intros endpoint method w r. rewrite _make_api_request_result. split.
  - destruct (w (api_request endpoint method)) as [cls message|r']; [discriminate|].
    destruct (raise_for_status r') as [[]|e] eqn:Hs.
    + unfold Response_json. destruct (body_json r'); discriminate.
    + intros [= ->]. apply raise_for_status_raises in Hs as [[= <-] Hcode]. now split.
  - intros [-> Hcode].
    assert (Hs : raise_for_status r = Raises (HTTPStatusError r))
      by now apply raise_for_status_raises.
    now rewrite Hs.
Qed.

(** X3: the call returns a value exactly when a response arrives with a
    status in 200..299 whose body decodes to that value. *)
Theorem make_api_request_returns_iff :
  forall (endpoint method : string) (w : remote) (v : py_value),
    snd (_make_api_request endpoint method w) = Returns v
    <-> exists r, w (api_request endpoint method) = Responds r
                  /\ 200 <= status_code r <= 299
                  /\ body_json r = Parsed v.
Proof.
  intros endpoint method w v. rewrite _make_api_request_result. split.
  - destruct (w (api_request endpoint method)) as [cls message|r]; [discriminate|].
    destruct (raise_for_status r) as [[]|e] eqn:Hs; [|discriminate].
    apply raise_for_status_returns in Hs. unfold Response_json.
    destruct (body_json r) as [v'|m|name m] eqn:Hbody; try discriminate.
    intros [= <-]. exists r. now repeat split.
  - intros (r & -> & Hcode & Hbody). apply raise_for_status_returns in Hcode.
    unfold Response_json. now rewrite Hcode, Hbody.
Qed.

(** X4: an exception other than [HTTPStatusError] leaves the call in two
    situations only: the transport raised it, and it passes unchanged; or a
    response with a status in 200..299 has a body on which the decoder
    raises, and it is the decoder's exception: a [JSONDecodeError] for text
    that is not JSON, or the exception of another builtin class
    ([UnicodeDecodeError], [RecursionError], [ValueError]). *)
Theorem make_api_request_other_exception_iff :
  forall (endpoint method : string) (w : remote) (cls : exn_class) (message : string),
    snd (_make_api_request endpoint method w) = Raises (Raised cls message)
    <-> w (api_request endpoint method) = TransportRaises cls message
        \/ exists r, w (api_request endpoint method) = Responds r
                     /\ 200 <= status_code r <= 299
                     /\ (body_json r = Undecodable message
                         /\ cls = Builtin "JSONDecodeError"
                         \/ exists name,
                              body_json r = DecoderRaises name message
                              /\ cls = Builtin name).
Proof.
  intros endpoint method w cls message. rewrite _make_api_request_result. split.
  - destruct (w (api_request endpoint method)) as [cls' message'|r].
    + intros [= -> ->]. now left.
    + destruct (raise_for_status r) as [[]|e] eqn:Hs.
      * apply raise_for_status_returns in Hs. unfold Response_json.
        destruct (body_json r) as [v|m|name m] eqn:Hbody; [discriminate| |].
        -- intros [= <- <-]. right. exists r. repeat split; try apply Hs. now left.
        -- intros [= <- <-]. right. exists r. repeat split; try apply Hs.
           right. now exists name.
      * apply raise_for_status_raises in Hs as [-> _]. discriminate.
  - intros [->|(r & -> & Hcode & [[Hbody ->]|(name & Hbody & ->)])];
      [reflexivity| |];
      apply raise_for_status_returns in Hcode; unfold Response_json;
      now rewrite Hcode, Hbody.
Qed.

(** ** [_handle_api_error] on exceptions without a response, lines 69-73 *)

Lemma has_sep_append (a b : string) :
  has_sep (a ++ String ":" (String " " b)) = true.
Proof.
  induction a as [|c a IH]; simpl; [reflexivity|].
  rewrite IH. apply orb_true_r.
Qed.

(** No class name followed by ": " and a message spells the timeout
    sentence. *)
Lemma no_name_spells_timeout (name message : string) :
  name ++ String ":" (String " " message) <> "Request timed out.".
Proof.
  intros H. pose proof (has_sep_append name message) as Hsep.
  rewrite H in Hsep. discriminate.
Qed.

(** X5: the classifier answers "Error: Request timed out." exactly for
    [httpx.TimeoutException] and its four subclasses, whatever their
    message; no status error, network error or other exception is reported
    as a timeout. *)
Theorem handle_api_error_timeout_iff :
  forall (e : exn),
    _handle_api_error e = Returns "Error: Request timed out."
    <-> exists cls message, e = Raised cls message /\ In cls timeout_classes.
Proof.
  intros e. split.
  - destruct e as [r|cls message].
    + unfold _handle_api_error.
      destruct (status_code r =? 404); [discriminate|].
      destruct (status_code r =? 403); [discriminate|].
      destruct (status_code r =? 401); [discriminate|].
      destruct (status_code r =? 429); [discriminate|].
      destruct (Response_json r) as [v|x]; [discriminate|].
      destruct (isinstance x ReadError); discriminate.
    + intros H. exists cls, message. split; [reflexivity|].
      destruct cls; cbn in H |- *; try discriminate; auto 6;
        exfalso; injection H as H;
        exact (no_name_spells_timeout name message H).
  - intros (cls & message & -> & Hin). unfold timeout_classes in Hin. cbn in Hin.
    destruct Hin as [<-|[<-|[<-|[<-|[<-|[]]]]]]; reflexivity.
Qed.

(** X6: for [httpx.RequestError] and its subclasses other than the
    timeouts, the classifier answers "Error: Network request failed: "
    followed by the text of the exception, unchanged. *)
Theorem handle_api_error_network_error :
  forall (cls : exn_class) (message : string),
    In cls network_classes ->
    _handle_api_error (Raised cls message)
    = Returns ("Error: Network request failed: " ++ message).
Proof.
  intros cls message Hin. unfold network_classes in Hin. cbn in Hin.
  repeat (destruct Hin as [<-|Hin]; [reflexivity|]). destruct Hin.
Qed.

Lemma handle_api_error_network_error_witness :
  In ConnectError network_classes
  /\ _handle_api_error (Raised ConnectError "All connection attempts failed")
     = Returns "Error: Network request failed: All connection attempts failed".
Proof.
  split; [cbn; auto 10|].
  apply (handle_api_error_network_error ConnectError "All connection attempts failed").
  cbn; auto 10.
Defined.

(** An exception of a class outside httpx's hierarchy is reported by the
    name of its class and its text. *)
Lemma _handle_api_error_other_exception :
  forall (name message : string),
    _handle_api_error (Raised (Builtin name) message)
    = Returns ("Error: " ++ name ++ ": " ++ message).
Proof. intros name message. reflexivity. Qed.

(** The classifier never reads the text of the response: the handler that
    would fall back to it catches [httpx.ReadError], which decoding a body
    does not raise. *)
Lemma _handle_api_error_ignores_text (code : Z) (text1 text2 : string)
      (body : decoded) :
  _handle_api_error (HTTPStatusError (mkResponse code text1 body))
  = _handle_api_error (HTTPStatusError (mkResponse code text2 body)).
Proof.
  unfold _handle_api_error, Response_json. cbn [status_code body_json text].
  destruct (code =? 404); [reflexivity|].
  destruct (code =? 403); [reflexivity|].
  destruct (code =? 401); [reflexivity|].
  destruct (code =? 429); [reflexivity|].
  destruct body; reflexivity.
Qed.

(** ** [byteflow_get_health] as a whole, lines 85-139 *)

(** X7: whatever the format and whatever the remote end does, an invocation
    sends exactly one request, the GET of "api/health" with the 30-second
    timeout; it does so too when it ends by raising. *)
Theorem byteflow_get_health_sends_one_get :
  forall (params : ByteflowGetHealthInput) (w : remote),
    fst (byteflow_get_health params w)
    = [mkRequest "GET" "https://apidoc.byteflow.bot" "api/health" 30].
Proof. intros params w. now rewrite byteflow_get_health_run. Qed.

(** X8: in markdown format the returned string is never longer than
    [CHARACTER_LIMIT], on the success path and on the failure path. *)
Theorem markdown_output_within_limit :
  forall (w : remote) (output : string),
    snd (byteflow_get_health (mkInput MARKDOWN) w) = Returns output ->
    len output <= 25000.
Proof.
  intros w output. rewrite byteflow_get_health_result.
  destruct (rendered MARKDOWN w) as [line|x]; [|discriminate].
  intros [= <-]. apply len_capped.
Qed.

Lemma markdown_output_within_limit_witness :
  snd (byteflow_get_health (mkInput MARKDOWN) long_status_remote)
    = Returns (slice_to ("Byteflow API Status: " ++ long_status) 24997 ++ "...")
  /\ len (slice_to ("Byteflow API Status: " ++ long_status) 24997 ++ "...") <= 25000.
Proof.
  assert (H : snd (byteflow_get_health (mkInput MARKDOWN) long_status_remote)
              = Returns (slice_to ("Byteflow API Status: " ++ long_status) 24997 ++ "..."))
    by evaluate.
  split; [exact H|].
  exact (markdown_output_within_limit long_status_remote _ H).
Defined.

(** X9: every string returned in markdown format begins with
    "Byteflow API Status: ", capped or not. *)
Theorem markdown_output_prefix :
  forall (w : remote) (output : string),
    snd (byteflow_get_health (mkInput MARKDOWN) w) = Returns output ->
    startswith output "Byteflow API Status: " = true.
Proof.
  intros w output. rewrite byteflow_get_health_result. unfold rendered.
  destruct (health_status w) as [status|e].
  - intros [= <-]. apply startswith_capped; [|vm_compute; discriminate].
    exact (prefix_self_append "Byteflow API Status: " (py_str status)).
  - destruct (is_Exception e); [|discriminate].
    destruct (_handle_api_error e) as [message|x]; [|discriminate].
    intros [= <-]. apply startswith_capped; [|vm_compute; discriminate].
    exact (prefix_self_append "Byteflow API Status: " ("Error - " ++ message)).
Qed.

Lemma markdown_output_prefix_witness :
  snd (byteflow_get_health (mkInput MARKDOWN) array_remote)
    = Returns ("Byteflow API Status: Error - Error: AttributeError: "
                 ++ "'list' object has no attribute 'get'")
  /\ startswith ("Byteflow API Status: Error - Error: AttributeError: "
                   ++ "'list' object has no attribute 'get'")
                "Byteflow API Status: " = true.
Proof.
  split; [reflexivity|].
  apply (markdown_output_prefix array_remote). reflexivity.
Defined.

(** X10: every string returned in json format is Python's print of a dict
    with one key: it begins with the single-quoted key, 'status' on the
    success path and 'error' on the failure path, and ends with the closing
    brace.  The output is therefore never a JSON document. *)
Theorem json_output_shape :
  forall (w : remote) (output : string),
    snd (byteflow_get_health (mkInput JSON) w) = Returns output ->
    ((exists status, health_status w = Returns status
                     /\ startswith output "{'status': " = true)
     \/ (exists e, health_status w = Raises e
                   /\ startswith output "{'error': " = true))
    /\ endswith output "}" = true.
Proof.
  intros w output. rewrite byteflow_get_health_result. unfold rendered.
  destruct (health_status w) as [status|e].
  - intros [= <-]. split.
    + left. exists status. split; [reflexivity|].
      exact (prefix_self_append "{'status': " (py_repr status ++ "}")).
    + exact (endswith_append ("{'status': " ++ py_repr status) "}").
  - destruct (is_Exception e); [|discriminate].
    destruct (_handle_api_error e) as [message|x]; [|discriminate].
    intros [= <-]. split.
    + right. exists e. split; [reflexivity|].
      exact (prefix_self_append "{'error': " (repr_str message ++ "}")).
    + exact (endswith_append ("{'error': " ++ repr_str message) "}").
Qed.

Lemma json_output_shape_witness :
  snd (byteflow_get_health (mkInput JSON) up_remote) = Returns "{'status': 'UP'}"
  /\ ((exists status, health_status up_remote = Returns status
                      /\ startswith "{'status': 'UP'}" "{'status': " = true)
      \/ (exists e, health_status up_remote = Raises e
                    /\ startswith "{'status': 'UP'}" "{'error': " = true))
  /\ endswith "{'status': 'UP'}" "}" = true.
Proof.
  split; [reflexivity|].
  apply (json_output_shape up_remote "{'status': 'UP'}"). reflexivity.
Defined.

(** X11: whether an invocation raises, and what it raises, does not depend
    on the format: the format only selects the rendering. *)
Theorem raising_is_independent_of_format :
  forall (w : remote) (f g : ResponseFormat) (x : exn),
    snd (byteflow_get_health (mkInput f) w) = Raises x
    <-> snd (byteflow_get_health (mkInput g) w) = Raises x.
Proof.
  intros w f g x. now rewrite !byteflow_get_health_raises.
Qed.

(** X12: the tool returns a string whenever the transport raises an
    exception that is an instance of [Exception], and whenever the
    response that arrives has a body that decodes as JSON, a status in
    200..299, or one of the four statuses with a fixed sentence. *)
Theorem byteflow_get_health_returns :
  forall (params : ByteflowGetHealthInput) (w : remote),
    (forall cls message, w health_request = TransportRaises cls message ->
                         is_Exception (Raised cls message) = true) ->
    (forall r, w health_request = Responds r ->
               (exists v, body_json r = Parsed v)
               \/ 200 <= status_code r <= 299
               \/ fixed_sentence_code (status_code r) = true) ->
    exists output, snd (byteflow_get_health params w) = Returns output.
Proof.
  intros params w Hcaught Hok.
  destruct (snd (byteflow_get_health params w)) as [output|x] eqn:Hrun;
    [now exists output|].
  exfalso. apply byteflow_get_health_raises in Hrun
    as [(name & message & Hw & _)|(r & Hw & Hstatus & Hcode & Hj)].
  - specialize (Hcaught _ _ Hw). discriminate.
  - destruct (Hok r Hw) as [[v Hv]|[H2xx|Hfixed]].
    + unfold Response_json in Hj. rewrite Hv in Hj. discriminate.
    + apply raise_for_status_returns in H2xx. unfold raise_for_status in H2xx.
      rewrite Hstatus in H2xx. discriminate.
    + congruence.
Qed.

Lemma byteflow_get_health_returns_witness :
  exists output,
    snd (byteflow_get_health (mkInput JSON)
           (always (mkResponse 429 "Too Many Requests" (Undecodable ""))))
    = Returns output.
Proof.
  apply (byteflow_get_health_returns (mkInput JSON)
           (always (mkResponse 429 "Too Many Requests" (Undecodable "")))).
  - intros cls message [=].
  - intros r [= <-]. right. right. reflexivity.
Defined.

(** X13: the text of the response never reaches the result: two remote ends
    whose responses differ in the text only, with the same status and the
    same decoding of the body, give the same result. *)
Theorem result_ignores_response_text :
  forall (params : ByteflowGetHealthInput) (w1 w2 : remote)
         (code : Z) (text1 text2 : string) (body : decoded),
    w1 health_request = Responds (mkResponse code text1 body) ->
    w2 health_request = Responds (mkResponse code text2 body) ->
    byteflow_get_health params w1 = byteflow_get_health params w2.
Proof.
  intros params w1 w2 code text1 text2 body H1 H2.
  rewrite !byteflow_get_health_run. unfold health_status, raise_for_status, Response_json.
  rewrite H1, H2. cbn [status_code body_json].
  destruct ((200 <=? code) && (code <=? 299)); [reflexivity|].
  now rewrite (_handle_api_error_ignores_text code text1 text2 body).
Qed.

Lemma result_ignores_response_text_witness :
  byteflow_get_health (mkInput MARKDOWN)
    (always (mkResponse 502 "Bad Gateway" (Parsed (PyStr "down"))))
  = byteflow_get_health (mkInput MARKDOWN)
      (always (mkResponse 502 "anything else" (Parsed (PyStr "down")))).
Proof.
  apply (result_ignores_response_text (mkInput MARKDOWN) _ _ 502
           "Bad Gateway" "anything else" (Parsed (PyStr "down"))); reflexivity.
Defined.

(** X14: when the transport raises a timeout, of any of the five classes and
    with any text, the tool returns the timeout line of the format. *)
Theorem timeout_output :
  forall (f : ResponseFormat) (w : remote) (cls : exn_class) (message : string),
    w health_request = TransportRaises cls message ->
    In cls timeout_classes ->
    snd (byteflow_get_health (mkInput f) w)
    = Returns match f with
              | MARKDOWN => "Byteflow API Status: Error - Error: Request timed out."
              | JSON => "{'error': 'Error: Request timed out.'}"
              end.
Proof.
  intros f w cls message Hw Hin.
  assert (Hs : health_status w = Raises (Raised cls message))
    by (unfold health_status; now rewrite Hw).
  assert (Hm : is_Exception (Raised cls message) = true
               /\ _handle_api_error (Raised cls message)
                  = Returns "Error: Request timed out.").
  { unfold timeout_classes in Hin. cbn in Hin.
    destruct Hin as [<-|[<-|[<-|[<-|[<-|[]]]]]]; split; reflexivity. }
  destruct Hm as [He Hm].
  rewrite (byteflow_get_health_failure f w _ _ Hs He Hm). destruct f; reflexivity.
Qed.

Lemma timeout_output_witness :
  In PoolTimeout timeout_classes
  /\ snd (byteflow_get_health (mkInput JSON) (fun _ => TransportRaises PoolTimeout ""))
     = Returns "{'error': 'Error: Request timed out.'}".
Proof.
  split; [cbn; auto 10|].
  apply (timeout_output JSON (fun _ => TransportRaises PoolTimeout "") PoolTimeout "");
    [reflexivity | cbn; auto 10].
Defined.

(** X15: a response with a status in 200..299 whose body does not decode
    does not make the tool raise: whatever the decoder raises (a
    [JSONDecodeError] for text that is not JSON, a [UnicodeDecodeError] for
    bytes that are no text, ...) is an exception of a builtin class, is
    caught, and is reported through the error template by the name of its
    class and its text. *)
Theorem undecodable_success_body_is_reported :
  forall (f : ResponseFormat) (w : remote) (r : Response) (x : exn),
    w health_request = Responds r ->
    200 <= status_code r <= 299 ->
    Response_json r = Raises x ->
    exists name message,
      x = Raised (Builtin name) message
      /\ snd (byteflow_get_health (mkInput f) w)
         = Returns (error_template f ("Error: " ++ name ++ ": " ++ message)).
Proof.
  intros f w r x Hw Hcode Hj.
  destruct (Response_json_raises r x Hj) as (name & message & ->).
  exists name, message. split; [reflexivity|].
  apply (byteflow_get_health_failure f w (Raised (Builtin name) message)).
  - unfold health_status. rewrite Hw.
    apply raise_for_status_returns in Hcode. now rewrite Hcode, Hj.
  - reflexivity.
  - reflexivity.
Qed.

Lemma undecodable_success_body_is_reported_witness :
  exists name message,
    Raised (Builtin "JSONDecodeError") "Expecting value"
      = Raised (Builtin name) message
    /\ snd (byteflow_get_health (mkInput MARKDOWN)
              (always (mkResponse 200 "<html></html>" (Undecodable "Expecting value"))))
       = Returns (error_template MARKDOWN ("Error: " ++ name ++ ": " ++ message)).
Proof.
  apply (undecodable_success_body_is_reported MARKDOWN
           (always (mkResponse 200 "<html></html>" (Undecodable "Expecting value")))
           (mkResponse 200 "<html></html>" (Undecodable "Expecting value"))
           (Raised (Builtin "JSONDecodeError") "Expecting value"));
    [reflexivity | cbn; lia | reflexivity].
Defined.

(** The decoder failure of a 2xx response with an HTML body, evaluated. *)
Example html_body_is_reported :
  snd (byteflow_get_health (mkInput MARKDOWN)
         (always (mkResponse 200 "<html></html>" (Undecodable "Expecting value"))))
  = Returns "Byteflow API Status: Error - Error: JSONDecodeError: Expecting value".
Proof. reflexivity. Qed.

(** X16: a response with status 404, 403, 401 or 429 always ends in the
    error template with the fixed sentence of that status, in both formats
    and whatever the body: these statuses lie outside 200..299, so the body
    is never decoded. *)
Theorem fixed_status_output :
  forall (f : ResponseFormat) (w : remote) (r : Response),
    w health_request = Responds r ->
    (status_code r = 404 ->
     snd (byteflow_get_health (mkInput f) w)
     = Returns (error_template f "Error: Resource not found."))
    /\ (status_code r = 403 ->
        snd (byteflow_get_health (mkInput f) w)
        = Returns (error_template f "Error: Permission denied."))
    /\ (status_code r = 401 ->
        snd (byteflow_get_health (mkInput f) w)
        = Returns (error_template f "Error: Authentication failed."))
    /\ (status_code r = 429 ->
        snd (byteflow_get_health (mkInput f) w)
        = Returns (error_template f "Error: Rate limit exceeded.")).
Proof.
  intros f w r Hw.
  assert (Hs : forall code, status_code r = code ->
                 ((200 <=? code) && (code <=? 299)) = false ->
                 health_status w = Raises (HTTPStatusError r)).
  { intros code Hcode H2xx. unfold health_status, raise_for_status.
    now rewrite Hw, Hcode, H2xx. }
  repeat split; intros Hcode;
    (apply (byteflow_get_health_failure f w (HTTPStatusError r));
     [apply (Hs _ Hcode); reflexivity
     | reflexivity
     | unfold _handle_api_error; rewrite Hcode; reflexivity]).
Qed.

Lemma fixed_status_output_witness :
  snd (byteflow_get_health (mkInput JSON)
         (always (mkResponse 401 "Unauthorized" (Undecodable ""))))
  = Returns "{'error': 'Error: Authentication failed.'}".
Proof.
  apply (fixed_status_output JSON
           (always (mkResponse 401 "Unauthorized" (Undecodable "")))
           (mkResponse 401 "Unauthorized" (Undecodable "")) eq_refl).
  reflexivity.
Defined.

(** ** [ResponseFormat] and [ByteflowGetHealthInput], lines 22-38 *)

(** X17: a value is accepted as a member of [ResponseFormat] exactly when it
    is the string that is the member's value; the member found is the one
    with that value. *)
Theorem ResponseFormat_value_round_trip :
  forall (v : py_value) (f : ResponseFormat),
    ResponseFormat_of_value v = Some f <-> v = PyStr (ResponseFormat_value f).
Proof.
  intros v f. split; [apply ResponseFormat_of_value_member|].
  intros ->. destruct f; reflexivity.
Qed.

(** X18: the arguments are accepted exactly when they hold no field other
    than [response_format] and that field is absent or holds "markdown" or
    "json"; the validated model has the format named, markdown when the
    field is absent. *)
Theorem ByteflowGetHealthInput_validate_iff :
  forall (items : list (string * py_value)) (params : ByteflowGetHealthInput),
    ByteflowGetHealthInput_validate (PyDict items) = inr params
    <-> extra_fields items = []
        /\ match dict_lookup items "response_format" with
           | None => response_format params = MARKDOWN
           | Some v => v = PyStr (ResponseFormat_value (response_format params))
           end.
Proof.
  intros items [f]. split; [apply ByteflowGetHealthInput_validate_accepts|].
  intros [Hextra Hfield]. unfold ByteflowGetHealthInput_validate.
  rewrite Hextra. cbn [response_format] in Hfield.
  destruct (dict_lookup items "response_format") as [v|].
  - subst v. destruct f; reflexivity.
  - now subst f.
Qed.
